(** * dapr-cert-transformer: the trust-bundle reconciler of [main.go]

    The reconciler watches one Kubernetes Secret and copies the bytes
    stored under the source cert/key fields into the destination cert/key
    fields whenever they differ.  This file embeds the decision logic
    ([isDaprTrustBundleSecret], [needsDaprTrustBundleSecretUpdate]) and the
    read-check-write sequence of [Reconcile], and proves the properties the
    specification states about them. *)

From Stdlib Require Import Strings.Byte.
From stdpp Require Import gmap strings list fin_maps.

Local Open Scope string_scope.

(** ** Data model *)

(** A Go [[]byte].  The code only ever converts these to [string] and
    compares them, so the nil slice and the empty slice (both of length 0,
    both converting to the empty string) are the same sequence [[]]. *)
Abbreviation bytes := (list byte).

#[global] Instance byte_eq_decision : EqDecision byte := Byte.byte_eq_dec.

(** [string(b)] on a byte slice: a Go string is its byte sequence. *)
Definition go_string (b : bytes) : list byte := b.

(** A Go error value, by the two texts the program can observe: what
    [Error()] returns, and what [fmt] prints for it under [%+v].  The two
    coincide unless the error's type implements [fmt.Formatter]. *)
Record error := mkError {
  errorText : string;
  plusVText : string
}.

(** [errors.New(msg)], and [fmt.Errorf] without [%w]: a plain error, printed
    as its message under every verb. *)
Definition errorsNew (msg : string) : error :=
  {| errorText := msg; plusVText := msg |}.

(** [client.ObjectKey] (= [types.NamespacedName]). *)
Record ObjectKey := mkObjectKey {
  Namespace : string;
  Name : string
}.

(** The part of [corev1.Secret] the program touches: its identity, the
    resource version the API server uses for optimistic concurrency, and
    [Data], a [map[string][]byte] that may be nil ([None]). *)
Record Secret := mkSecret {
  ObjNamespace : string;
  ObjName : string;
  ResourceVersion : nat;
  Data : option (gmap string bytes)
}.

(** [&corev1.Secret{}]: the zero value. *)
Definition emptySecret : Secret :=
  {| ObjNamespace := ""; ObjName := ""; ResourceVersion := 0; Data := None |}.

Definition ObjectKeyFromObject (s : Secret) : ObjectKey :=
  {| Namespace := ObjNamespace s; Name := ObjName s |}.

(** The package-level variables set by [parseFlags] (and by the
    [POD_NAMESPACE] fallback of [main]) before any reconciliation runs. *)
Record Config := mkConfig {
  daprTrustBundleNamespace : string;
  daprTrustBundleName : string;
  certSourceKey : string;
  certDestKey : string;
  keySourceKey : string;
  keyDestKey : string
}.

(** The initial values of the package-level variables. *)
Definition defaultConfig : Config :=
  {| daprTrustBundleNamespace := "";
     daprTrustBundleName := "dapr-trust-bundle";
     certSourceKey := "tls.crt";
     certDestKey := "issuer.crt";
     keySourceKey := "tls.key";
     keyDestKey := "issuer.key" |}.

(** [reconcile.Result]; the reconciler always returns the zero value. *)
Record Result := mkResult {
  Requeue : bool;
  RequeueAfter : nat
}.

Definition emptyResult : Result := {| Requeue := false; RequeueAfter := 0 |}.

(** ** Go map operations on a possibly-nil map *)

(** [v, ok := m[k]]: a nil map and a missing key both give the zero value
    and [false]. *)
Definition map_index2 (m : option (gmap string bytes)) (k : string) : bytes * bool :=
  match m with
  | None => ([], false)
  | Some d =>
      match d !! k with
      | Some v => (v, true)
      | None => ([], false)
      end
  end.

(** [m[k]] as an expression. *)
Definition map_index (m : option (gmap string bytes)) (k : string) : bytes :=
  fst (map_index2 m k).

(** [m[k] = v]: assignment to an entry of a nil map panics ([None]). *)
Definition map_assign (m : option (gmap string bytes)) (k : string) (v : bytes)
  : option (gmap string bytes) :=
  match m with
  | None => None
  | Some d => Some (<[k := v]> d)
  end.

(** Whether the payload has a field, and the byte sequence read from it. *)
Definition fieldPresent (s : Secret) (k : string) : Prop :=
  snd (map_index2 (Data s) k) = true.

Definition fieldValue (s : Secret) (k : string) : bytes :=
  map_index (Data s) k.

(** ** The decision functions *)

Definition isDaprTrustBundleSecret (cfg : Config) (o : ObjectKey) : bool :=
  bool_decide (Namespace o = daprTrustBundleNamespace cfg)
  && bool_decide (Name o = daprTrustBundleName cfg).

Definition needsDaprTrustBundleSecretUpdate (cfg : Config) (s : Secret) : bool :=
  let '(tlsCrt, tlsCrtOk) := map_index2 (Data s) (certSourceKey cfg) in
  let '(tlsKey, tlsKeyOk) := map_index2 (Data s) (keySourceKey cfg) in
  let '(issuerCrt, _) := map_index2 (Data s) (certDestKey cfg) in
  let '(issuerKey, _) := map_index2 (Data s) (keyDestKey cfg) in
  tlsCrtOk && tlsKeyOk
  && (negb (bool_decide (go_string tlsCrt = go_string issuerCrt))
      || negb (bool_decide (go_string tlsKey = go_string issuerKey))).

(** ** The remote store and the effects of a reconciliation *)

(** What [a.Get] hands back: the fetched object, or the error. *)
Inductive GetResult :=
| GetOk (s : Secret)
| GetErr (e : error).

(** The embedded [client.Client], reduced to the two calls the reconciler
    makes.  [W] is the state of everything behind the client (API server,
    cache, network); both calls may change it and both may fail. *)
Class Client (W : Type) := {
  Get : ObjectKey -> W -> GetResult * W;
  Update : Secret -> W -> option error * W
}.

(** Lines written through the [logr] logger: [l.V(v).Info] and [l.Error]. *)
Inductive LogEntry :=
| LogInfo (v : nat) (msg : string)
| LogError (err : error) (msg : string).

(** What one invocation does, in order. *)
Inductive Event :=
| EvLog (l : LogEntry)
| EvGet (key : ObjectKey) (res : GetResult)
| EvUpdate (obj : Secret) (res : option error).

(** A Go call either returns or panics. *)
Inductive Res (A : Type) :=
| Done (a : A)
| Panic (msg : string).
Arguments Done {A} a.
Arguments Panic {A} msg.

(** Computations over the store that record their events. *)
Definition M (W A : Type) : Type := W -> Res A * W * list Event.

#[global] Instance M_ret {W} : MRet (M W) :=
  fun A (a : A) w => (Done a, w, []).

#[global] Instance M_bind {W} : MBind (M W) :=
  fun A B (f : A -> M W B) (m : M W A) w =>
    match m w with
    | (Done a, w1, t1) =>
        match f a w1 with
        | (r, w2, t2) => (r, w2, (t1 ++ t2)%list)
        end
    | (Panic msg, w1, t1) => (Panic msg, w1, t1)
    end.

Definition panic {W A} (msg : string) : M W A := fun w => (Panic msg, w, []).

Definition log {W} (l : LogEntry) : M W unit := fun w => (Done tt, w, [EvLog l]).

Definition callGet {W} `{Client W} (key : ObjectKey) : M W GetResult :=
  fun w => let '(r, w1) := Get key w in (Done r, w1, [EvGet key r]).

Definition callUpdate {W} `{Client W} (obj : Secret) : M W (option error) :=
  fun w => let '(r, w1) := Update obj w in (Done r, w1, [EvUpdate obj r]).

(** [s.Data[k] = v] on the fetched object. *)
Definition assignData {W} (s : Secret) (k : string) (v : bytes) : M W Secret :=
  match map_assign (Data s) k v with
  | Some d =>
      mret {| ObjNamespace := ObjNamespace s; ObjName := ObjName s;
             ResourceVersion := ResourceVersion s; Data := Some d |}
  | None => panic "assignment to entry in nil map"
  end.

(** [fmt.Errorf("could not update Secret: %+v", err)]: a new plain error
    whose message is the prefix followed by what [%+v] prints for [err]. *)
Definition wrapUpdateError (err : error) : error :=
  errorsNew ("could not update Secret: " ++ plusVText err).

(** ** Reconcile *)

Definition Reconcile {W} `{Client W} (cfg : Config) (req : ObjectKey)
  : M W (Result * option error) :=
  log (LogInfo 4 "DaprSecretReconciler.Reconcile ...") ;;
  if negb (isDaprTrustBundleSecret cfg req) then
    log (LogInfo 0 "Avoid reconciling other secret") ;;
    mret (emptyResult, None)
  else
    r ← callGet req;
    match r with
    | GetErr err =>
        log (LogError err "Failed to get secret") ;;
        mret (emptyResult, Some err)
    | GetOk s =>
        if negb (needsDaprTrustBundleSecretUpdate cfg s) then
          log (LogInfo 0 "Already up-to-date") ;;
          mret (emptyResult, None)
        else
          s1 ← assignData s (certDestKey cfg) (map_index (Data s) (certSourceKey cfg));
          s2 ← assignData s1 (keyDestKey cfg) (map_index (Data s1) (keySourceKey cfg));
          e ← callUpdate s2;
          match e with
          | Some err =>
              log (LogError err "Failed to update secret") ;;
              mret (emptyResult, Some (wrapUpdateError err))
          | None =>
              log (LogInfo 0 "Successful reconciliation") ;;
              mret (emptyResult, None)
          end
    end.

(** ** Observations on one invocation *)

Definition isGet (e : Event) : bool :=
  match e with EvGet _ _ => true | _ => false end.

Definition isUpdate (e : Event) : bool :=
  match e with EvUpdate _ _ => true | _ => false end.

Definition isFailedGet (e : Event) : bool :=
  match e with EvGet _ (GetErr _) => true | _ => false end.

Definition isFailedUpdate (e : Event) : bool :=
  match e with EvUpdate _ (Some _) => true | _ => false end.

(** Number of remote reads and writes in a trace. *)
Definition reads (t : list Event) : nat := length (List.filter isGet t).
Definition writes (t : list Event) : nat := length (List.filter isUpdate t).

(** The objects submitted to the store, in order. *)
Definition submitted (t : list Event) : list Secret :=
  omap (fun e => match e with EvUpdate obj _ => Some obj | _ => None end) t.

(** Whether a trace holds a failed read, a failed write. *)
Definition readFailed (t : list Event) : bool := existsb isFailedGet t.
Definition writeFailed (t : list Event) : bool := existsb isFailedUpdate t.

Definition trace {W A} (o : Res A * W * list Event) : list Event := snd o.
Definition outcome {W A} (o : Res A * W * list Event) : Res A := fst (fst o).
Definition finalWorld {W A} (o : Res A * W * list Event) : W := snd (fst o).

(** The error a finished invocation returned, if any. *)
Definition returnedError (r : Res (Result * option error)) : option error :=
  match r with
  | Done (_, e) => e
  | Panic _ => None
  end.

Definition returnsSuccess (r : Res (Result * option error)) : Prop :=
  r = Done (emptyResult, None).

Definition returnsFailure (r : Res (Result * option error)) : Prop :=
  exists err, r = Done (emptyResult, Some err).

(** The two assignments of the write path, on a non-nil map. *)
Definition copiedData (cfg : Config) (d : gmap string bytes) : gmap string bytes :=
  let d1 := <[certDestKey cfg := map_index (Some d) (certSourceKey cfg)]> d in
  <[keyDestKey cfg := map_index (Some d1) (keySourceKey cfg)]> d1.

Definition withData (s : Secret) (d : gmap string bytes) : Secret :=
  {| ObjNamespace := ObjNamespace s; ObjName := ObjName s;
     ResourceVersion := ResourceVersion s; Data := Some d |}.

(** ** An in-memory store *)

(** A test double for the API server: objects by (namespace, name), an
    update accepted only at the stored resource version, and an optional
    injected write failure. *)
Record FakeStore := mkFakeStore {
  objects : gmap (string * string) Secret;
  updateFault : option error
}.

Definition fakeGet (key : ObjectKey) (w : FakeStore) : GetResult * FakeStore :=
  match objects w !! (Namespace key, Name key) with
  | Some s => (GetOk s, w)
  | None => (GetErr (errorsNew "not found"), w)
  end.

Definition fakeUpdate (obj : Secret) (w : FakeStore) : option error * FakeStore :=
  match updateFault w with
  | Some e => (Some e, w)
  | None =>
      match objects w !! (ObjNamespace obj, ObjName obj) with
      | None => (Some (errorsNew "not found"), w)
      | Some cur =>
          if bool_decide (ResourceVersion cur = ResourceVersion obj) then
            (None,
             {| objects :=
                  <[(ObjNamespace obj, ObjName obj) :=
                      {| ObjNamespace := ObjNamespace obj; ObjName := ObjName obj;
                         ResourceVersion := S (ResourceVersion obj);
                         Data := Data obj |}]> (objects w);
                updateFault := None |})
          else (Some (errorsNew "conflict"), w)
      end
  end.

#[global] Instance fakeClient : Client FakeStore :=
  {| Get := fakeGet; Update := fakeUpdate |}.

(** Byte strings of the scenarios. *)
Definition b (s : string) : bytes := String.list_byte_of_string s.

Definition bundleKey : ObjectKey := {| Namespace := "dapr-system"; Name := "dapr-trust-bundle" |}.

Definition cfgA : Config :=
  {| daprTrustBundleNamespace := "dapr-system";
     daprTrustBundleName := "dapr-trust-bundle";
     certSourceKey := "tls.crt";
     certDestKey := "issuer.crt";
     keySourceKey := "tls.key";
     keyDestKey := "issuer.key" |}.

Definition bundle (d : gmap string bytes) : Secret :=
  {| ObjNamespace := "dapr-system"; ObjName := "dapr-trust-bundle";
     ResourceVersion := 7; Data := Some d |}.

Definition storeOf (s : Secret) : FakeStore :=
  {| objects := {[ (ObjNamespace s, ObjName s) := s ]}; updateFault := None |}.

(** Scenario A and B payloads. *)
Definition staleData : gmap string bytes :=
  <["tls.crt" := b "C1"]> (<["tls.key" := b "K1"]>
    (<["issuer.crt" := b ""]> (<["issuer.key" := b ""]> ∅))).

Definition freshData : gmap string bytes :=
  <["tls.crt" := b "C1"]> (<["tls.key" := b "K1"]>
    (<["issuer.crt" := b "C1"]> (<["issuer.key" := b "K1"]> ∅))).

(** A payload whose source fields hold empty byte sequences and whose
    destination fields are missing. *)
Definition emptySourcesData : gmap string bytes :=
  <["tls.crt" := b ""]> (<["tls.key" := b ""]> ∅).

(** A payload with sources only. *)
Definition sourcesOnlyData : gmap string bytes :=
  <["tls.crt" := b "C1"]> (<["tls.key" := b "K1"]> ∅).

(** Flags [--dest-cert-secret-key=issuer --dest-key-secret-key=issuer]:
    both destinations name one field. *)
Definition cfgSharedDest : Config :=
  {| daprTrustBundleNamespace := "dapr-system";
     daprTrustBundleName := "dapr-trust-bundle";
     certSourceKey := "tls.crt";
     certDestKey := "issuer";
     keySourceKey := "tls.key";
     keyDestKey := "issuer" |}.

(** Flags [--dest-cert-secret-key=tls.crt --dest-key-secret-key=tls.key]:
    the destinations are the sources. *)
Definition cfgAliased : Config :=
  {| daprTrustBundleNamespace := "dapr-system";
     daprTrustBundleName := "dapr-trust-bundle";
     certSourceKey := "tls.crt";
     certDestKey := "tls.crt";
     keySourceKey := "tls.key";
     keyDestKey := "tls.key" |}.

(** What is submitted for [sourcesOnlyData] under [cfgSharedDest]. *)
Definition sharedDestResult : gmap string bytes :=
  <["issuer" := b "K1"]> sourcesOnlyData.

(** Flag [--dest-cert-secret-key=tls.key]: the cert destination is the key
    source. *)
Definition cfgCrossed : Config :=
  {| daprTrustBundleNamespace := "dapr-system";
     daprTrustBundleName := "dapr-trust-bundle";
     certSourceKey := "tls.crt";
     certDestKey := "tls.key";
     keySourceKey := "tls.key";
     keyDestKey := "issuer.key" |}.

(** What is submitted for [sourcesOnlyData] under [cfgCrossed]. *)
Definition crossedResult : gmap string bytes :=
  <["tls.crt" := b "C1"]> (<["tls.key" := b "C1"]> (<["issuer.key" := b "C1"]> ∅)).

(** Same name as the bundle, another namespace. *)
Definition otherKey : ObjectKey :=
  {| Namespace := "default"; Name := "dapr-trust-bundle" |}.

Definition emptyStore : FakeStore := {| objects := ∅; updateFault := None |}.

Definition faultyStoreOf (s : Secret) (e : error) : FakeStore :=
  {| objects := {[ (ObjNamespace s, ObjName s) := s ]}; updateFault := Some e |}.

(** ** The shapes of a run *)

Definition entryLog : Event := EvLog (LogInfo 4 "DaprSecretReconciler.Reconcile ...").

(** Every invocation of [Reconcile] takes one of four paths; each fixes the
    returned value, the final store state and the events. *)
Inductive ReconcileRun {W} `{Client W} (cfg : Config) (req : ObjectKey) (w : W)
  : Res (Result * option error) * W * list Event -> Prop :=
| RunSkipped :
    isDaprTrustBundleSecret cfg req = false ->
    ReconcileRun cfg req w
      (Done (emptyResult, None), w,
       [entryLog; EvLog (LogInfo 0 "Avoid reconciling other secret")])
| RunGetFailed err w1 :
    isDaprTrustBundleSecret cfg req = true ->
    Get req w = (GetErr err, w1) ->
    ReconcileRun cfg req w
      (Done (emptyResult, Some err), w1,
       [entryLog; EvGet req (GetErr err); EvLog (LogError err "Failed to get secret")])
| RunUpToDate s w1 :
    isDaprTrustBundleSecret cfg req = true ->
    Get req w = (GetOk s, w1) ->
    needsDaprTrustBundleSecretUpdate cfg s = false ->
    ReconcileRun cfg req w
      (Done (emptyResult, None), w1,
       [entryLog; EvGet req (GetOk s); EvLog (LogInfo 0 "Already up-to-date")])
| RunWritten s w1 d e w2 :
    isDaprTrustBundleSecret cfg req = true ->
    Get req w = (GetOk s, w1) ->
    needsDaprTrustBundleSecretUpdate cfg s = true ->
    Data s = Some d ->
    Update (withData s (copiedData cfg d)) w1 = (e, w2) ->
    ReconcileRun cfg req w
      (Done (emptyResult, wrapUpdateError <$> e), w2,
       [entryLog; EvGet req (GetOk s);
        EvUpdate (withData s (copiedData cfg d)) e;
        EvLog (match e with
               | Some err => LogError err "Failed to update secret"
               | None => LogInfo 0 "Successful reconciliation"
               end)]).

(** ** Event filter and startup of [main] *)

(** The two closures [main] passes as [CreateFunc] and [UpdateFunc] of
    [predicate.Funcs]: each tests the object the event carries (the new
    one, for an update).  They are one part of the filter [main] installs,
    which is [predicate.And] of controller-runtime's
    [ResourceVersionChangedPredicate] and these [Funcs]; that library
    predicate, and what [Funcs] answers for the delete and generic events
    it has no closure for, are not modelled. *)
Record CreateEvent := mkCreateEvent {
  Object : Secret
}.

Record UpdateEvent := mkUpdateEvent {
  ObjectOld : Secret;
  ObjectNew : Secret
}.

Definition CreateFunc (cfg : Config) (evt : CreateEvent) : bool :=
  isDaprTrustBundleSecret cfg (ObjectKeyFromObject (Object evt)).

Definition UpdateFunc (cfg : Config) (evt : UpdateEvent) : bool :=
  isDaprTrustBundleSecret cfg (ObjectKeyFromObject (ObjectNew evt)).

(** How far [main] gets before it creates the manager: it has exited
    (with the text printed on standard output and the lines logged), or it
    goes on with the package variables as they now stand. *)
Inductive Startup :=
| Exited (code : nat) (stdout : string) (logged : list LogEntry)
| Started (cfg : Config).

Definition newline : string := String (Ascii.ascii_of_nat 10) EmptyString.

(** [main] from the return of [parseFlags] (which has set [showVersion]
    and the variables of [cfg]) up to, and not including, the call of
    [manager.New(config.GetConfigOrDie(), ...)].  [getenv] is [os.Getenv]:
    the empty string for an unset variable. *)
Definition main_startup (progname version : string) (showVersion : bool)
    (cfg : Config) (getenv : string -> string) : Startup :=
  if showVersion then
    Exited 0 (progname ++ " version " ++ version ++ newline) []
  else if bool_decide (daprTrustBundleNamespace cfg = "") then
    let podNs := getenv "POD_NAMESPACE" in
    if bool_decide (podNs = "") then
      Exited 1 ""
        [LogError (errorsNew "Missing POD_NAMESPACE environment variable")
                  "could not identify namespace to watch"]
    else
      Started {| daprTrustBundleNamespace := podNs;
                 daprTrustBundleName := daprTrustBundleName cfg;
                 certSourceKey := certSourceKey cfg;
                 certDestKey := certDestKey cfg;
                 keySourceKey := keySourceKey cfg;
                 keyDestKey := keyDestKey cfg |}
  else Started cfg.

(** An environment holding [POD_NAMESPACE] only. *)
Definition envOf (podNs : string) : string -> string :=
  fun k => if bool_decide (k = "POD_NAMESPACE") then podNs else "".

Definition isErrorLog (e : Event) : bool :=
  match e with EvLog (LogError _ _) => true | _ => false end.

(** An error of a type with its own [Format] method: [%+v] prints more
    than [Error()] returns. *)
Definition verboseConflict : error :=
  {| errorText := "conflict";
     plusVText := "conflict: resource version 7 is stale" |}.

(** A bundle whose [Data] map is nil. *)
Definition nilDataBundle : Secret :=
  {| ObjNamespace := "dapr-system"; ObjName := "dapr-trust-bundle";
     ResourceVersion := 3; Data := None |}.

(** The stale payload with one more field, at another resource version. *)
Definition staleBundleWithCA : Secret :=
  {| ObjNamespace := "dapr-system"; ObjName := "dapr-trust-bundle";
     ResourceVersion := 12; Data := Some (<["ca.crt" := b "ROOT"]> staleData) |}.

(** * Properties *)

(** ** Go map reads *)

Lemma map_index2_Some (d : gmap string bytes) (k : string) :
  map_index2 (Some d) k = (default [] (d !! k), bool_decide (is_Some (d !! k))).
Proof. unfold map_index2. destruct (d !! k); reflexivity. Qed.

Lemma fieldPresent_lookup (s : Secret) (k : string) :
  fieldPresent s k <-> exists d v, Data s = Some d /\ d !! k = Some v.
Proof.
  unfold fieldPresent, map_index2. split.
  - destruct (Data s) as [d|]; [|discriminate].
    destruct (d !! k) as [v|] eqn:E; [|discriminate]. eauto.
  - intros (d & v & -> & ->). reflexivity.
Qed.

Lemma fieldValue_lookup (s : Secret) (d : gmap string bytes) (k : string) (v : bytes) :
  Data s = Some d -> d !! k = Some v -> fieldValue s k = v.
Proof. unfold fieldValue, map_index, map_index2. intros -> ->. reflexivity. Qed.

Lemma fieldValue_absent (s : Secret) (k : string) :
  ~ fieldPresent s k -> fieldValue s k = [].
Proof.
  unfold fieldPresent, fieldValue, map_index, map_index2.
  destruct (Data s) as [d|]; [|reflexivity].
  destruct (d !! k); [intros []; reflexivity | reflexivity].
Qed.

(** [needsDaprTrustBundleSecretUpdate] in terms of presence and values. *)
Lemma needs_unfold (cfg : Config) (s : Secret) :
  needsDaprTrustBundleSecretUpdate cfg s
  = snd (map_index2 (Data s) (certSourceKey cfg))
    && snd (map_index2 (Data s) (keySourceKey cfg))
    && (negb (bool_decide (fieldValue s (certSourceKey cfg) = fieldValue s (certDestKey cfg)))
        || negb (bool_decide (fieldValue s (keySourceKey cfg) = fieldValue s (keyDestKey cfg)))).
Proof.
  unfold needsDaprTrustBundleSecretUpdate, fieldValue, map_index, go_string.
  destruct (map_index2 (Data s) (certSourceKey cfg)),
           (map_index2 (Data s) (keySourceKey cfg)),
           (map_index2 (Data s) (certDestKey cfg)),
           (map_index2 (Data s) (keyDestKey cfg)).
  reflexivity.
Qed.

Lemma needs_true_iff (cfg : Config) (s : Secret) :
  needsDaprTrustBundleSecretUpdate cfg s = true
  <-> fieldPresent s (certSourceKey cfg)
      /\ fieldPresent s (keySourceKey cfg)
      /\ (fieldValue s (certDestKey cfg) <> fieldValue s (certSourceKey cfg)
          \/ fieldValue s (keyDestKey cfg) <> fieldValue s (keySourceKey cfg)).
Proof.
  rewrite needs_unfold. unfold fieldPresent.
  rewrite !andb_true_iff, orb_true_iff, !negb_true_iff, !bool_decide_eq_false.
  intuition congruence.
Qed.

(** Equal pairs need no update (whether or not the sources are present). *)
Lemma needs_false_when_equal (cfg : Config) (s : Secret) :
  fieldValue s (certDestKey cfg) = fieldValue s (certSourceKey cfg) ->
  fieldValue s (keyDestKey cfg) = fieldValue s (keySourceKey cfg) ->
  needsDaprTrustBundleSecretUpdate cfg s = false.
Proof.
  intros Hc Hk.
  destruct (needsDaprTrustBundleSecretUpdate cfg s) eqn:Hn; [|reflexivity].
  apply needs_true_iff in Hn as (_ & _ & [Hne|Hne]); contradiction.
Qed.

Lemma needs_true_data (cfg : Config) (s : Secret) :
  needsDaprTrustBundleSecretUpdate cfg s = true -> exists d, Data s = Some d.
Proof.
  intros Hn. apply needs_true_iff in Hn as (Hc & _ & _).
  apply fieldPresent_lookup in Hc as (d & _ & Hd & _). eauto.
Qed.

(** ** The four paths of [Reconcile] *)

Section Runs.
Context {W : Type} `{Client W}.
Variables (cfg : Config) (req : ObjectKey) (w : W).

Lemma Reconcile_cases : ReconcileRun cfg req w (Reconcile cfg req w).
Proof.
  unfold Reconcile, mbind, M_bind, log, callGet, callUpdate, mret, M_ret.
  destruct (isDaprTrustBundleSecret cfg req) eqn:Hw; simpl.
  2: { by apply RunSkipped. }
  destruct (Get req w) as [[s|err] w1] eqn:Hg; simpl.
  2: { by apply RunGetFailed. }
  destruct (needsDaprTrustBundleSecretUpdate cfg s) eqn:Hn; simpl.
  2: { by eapply RunUpToDate. }
  destruct (needs_true_data cfg s Hn) as [d Hd].
  unfold assignData, mret, M_ret. rewrite Hd. simpl.
  change (Some (<[keyDestKey cfg := _]> _)) with (Some (copiedData cfg d)).
  fold (withData s (copiedData cfg d)).
  destruct (Update (withData s (copiedData cfg d)) w1) as [e w2] eqn:Hu.
  destruct e as [err|]; simpl.
  - by apply (RunWritten cfg req w s w1 d (Some err) w2).
  - by apply (RunWritten cfg req w s w1 d None w2).
Qed.

(** A run is determined by what the store answers. *)
Lemma Reconcile_skipped :
  isDaprTrustBundleSecret cfg req = false ->
  Reconcile cfg req w
  = (Done (emptyResult, None), w,
     [entryLog; EvLog (LogInfo 0 "Avoid reconciling other secret")]).
Proof.
  intros Hw. destruct Reconcile_cases; congruence.
Qed.

Lemma Reconcile_up_to_date s w1 :
  isDaprTrustBundleSecret cfg req = true ->
  Get req w = (GetOk s, w1) ->
  needsDaprTrustBundleSecretUpdate cfg s = false ->
  Reconcile cfg req w
  = (Done (emptyResult, None), w1,
     [entryLog; EvGet req (GetOk s); EvLog (LogInfo 0 "Already up-to-date")]).
Proof.
  intros Hw Hg Hn. destruct Reconcile_cases; congruence.
Qed.

Lemma Reconcile_written s w1 d e w2 :
  isDaprTrustBundleSecret cfg req = true ->
  Get req w = (GetOk s, w1) ->
  needsDaprTrustBundleSecretUpdate cfg s = true ->
  Data s = Some d ->
  Update (withData s (copiedData cfg d)) w1 = (e, w2) ->
  Reconcile cfg req w
  = (Done (emptyResult, wrapUpdateError <$> e), w2,
     [entryLog; EvGet req (GetOk s);
      EvUpdate (withData s (copiedData cfg d)) e;
      EvLog (match e with
             | Some err => LogError err "Failed to update secret"
             | None => LogInfo 0 "Successful reconciliation"
             end)]).
Proof.
  intros Hw Hg Hn Hd Hu.
  destruct Reconcile_cases as [?|? ? ? ?|? ? ? ? ?|s0 w0 d0 e0 w3 ? ? ? ? ?];
    try congruence.
  assert (s0 = s) as -> by congruence.
  assert (w0 = w1) as -> by congruence.
  assert (d0 = d) as -> by congruence.
  assert (e0 = e /\ w3 = w2) as [-> ->] by (split; congruence).
  reflexivity.
Qed.
End Runs.

(** ** The decision functions *)

(** C1. [needsDaprTrustBundleSecretUpdate] returns true exactly when both
    source fields are present and the destination cert bytes differ from
    the source cert bytes or the destination key bytes differ from the
    source key bytes (values compared as byte sequences, as the code reads
    them from the map); when a source field is absent it returns false. *)
Theorem needsUpdate_iff (cfg : Config) (s : Secret) :
  (needsDaprTrustBundleSecretUpdate cfg s = true
   <-> fieldPresent s (certSourceKey cfg)
       /\ fieldPresent s (keySourceKey cfg)
       /\ (fieldValue s (certDestKey cfg) <> fieldValue s (certSourceKey cfg)
           \/ fieldValue s (keyDestKey cfg) <> fieldValue s (keySourceKey cfg)))
  /\ (~ fieldPresent s (certSourceKey cfg) \/ ~ fieldPresent s (keySourceKey cfg)
      -> needsDaprTrustBundleSecretUpdate cfg s = false).
Proof.
  split; [apply needs_true_iff|].
  intros Habs.
  destruct (needsDaprTrustBundleSecretUpdate cfg s) eqn:Hn; [|reflexivity].
  apply needs_true_iff in Hn as (Hc & Hk & _). tauto.
Qed.

(** C2, as stated, fails: with both source fields present but empty and both
    destination fields absent, no update is requested. *)
Lemma absent_dest_empty_source_no_update :
  fieldPresent (bundle emptySourcesData) (certSourceKey cfgA)
  /\ fieldPresent (bundle emptySourcesData) (keySourceKey cfgA)
  /\ snd (map_index2 (Data (bundle emptySourcesData)) (certDestKey cfgA)) = false
  /\ snd (map_index2 (Data (bundle emptySourcesData)) (keyDestKey cfgA)) = false
  /\ needsDaprTrustBundleSecretUpdate cfgA (bundle emptySourcesData) = false.
Proof. repeat split; vm_compute; reflexivity. Qed.

(** C2, amended. With both source fields present, an absent destination
    field whose source holds a non-empty byte sequence makes
    [needsDaprTrustBundleSecretUpdate] return true: the absent destination
    is read as the empty byte sequence. *)
Theorem needsUpdate_absent_dest (cfg : Config) (s : Secret) :
  fieldPresent s (certSourceKey cfg) ->
  fieldPresent s (keySourceKey cfg) ->
  (~ fieldPresent s (certDestKey cfg) /\ fieldValue s (certSourceKey cfg) <> [])
  \/ (~ fieldPresent s (keyDestKey cfg) /\ fieldValue s (keySourceKey cfg) <> []) ->
  needsDaprTrustBundleSecretUpdate cfg s = true.
Proof.
  intros Hc Hk Hd. apply needs_true_iff. split; [done|]. split; [done|].
  destruct Hd as [[Ha Hne]|[Ha Hne]]; [left|right];
    rewrite (fieldValue_absent _ _ Ha); congruence.
Qed.

Lemma needsUpdate_absent_dest_witness :
  needsDaprTrustBundleSecretUpdate cfgA (bundle sourcesOnlyData) = true.
Proof.
  apply (needsUpdate_absent_dest cfgA (bundle sourcesOnlyData)).
  - vm_compute; reflexivity.
  - vm_compute; reflexivity.
  - left. split; vm_compute; discriminate.
Defined.

(** C3. [isDaprTrustBundleSecret] holds exactly of the configured
    (namespace, name) pair; a different namespace or a different name gives
    false, whatever the other component is. *)
Theorem isDaprTrustBundleSecret_iff (cfg : Config) (o : ObjectKey) :
  (isDaprTrustBundleSecret cfg o = true
   <-> Namespace o = daprTrustBundleNamespace cfg /\ Name o = daprTrustBundleName cfg)
  /\ (Namespace o <> daprTrustBundleNamespace cfg -> isDaprTrustBundleSecret cfg o = false)
  /\ (Name o <> daprTrustBundleName cfg -> isDaprTrustBundleSecret cfg o = false).
Proof.
  unfold isDaprTrustBundleSecret.
  rewrite andb_true_iff, !bool_decide_eq_true.
  split; [reflexivity|]. split; intros Hne.
  - by rewrite (bool_decide_eq_false_2 _ Hne).
  - rewrite (bool_decide_eq_false_2 _ Hne). apply andb_false_r.
Qed.

Example same_name_other_namespace :
  isDaprTrustBundleSecret cfgA otherKey = false
  /\ isDaprTrustBundleSecret cfgA bundleKey = true.
Proof. split; vm_compute; reflexivity. Qed.

(** ** The two assignments *)

Lemma copiedData_other (cfg : Config) (d : gmap string bytes) (f : string) :
  f <> certDestKey cfg -> f <> keyDestKey cfg -> copiedData cfg d !! f = d !! f.
Proof.
  intros Hc Hk. unfold copiedData. by rewrite !lookup_insert_ne.
Qed.

Lemma copiedData_keeps (cfg : Config) (d : gmap string bytes) (f : string) :
  is_Some (d !! f) -> is_Some (copiedData cfg d !! f).
Proof.
  intros Hf. unfold copiedData.
  destruct (decide (keyDestKey cfg = f)) as [->|Hk].
  - rewrite lookup_insert_eq. eauto.
  - rewrite lookup_insert_ne by done.
    destruct (decide (certDestKey cfg = f)) as [->|Hc].
    + rewrite lookup_insert_eq. eauto.
    + by rewrite lookup_insert_ne.
Qed.

Lemma copiedData_certDest (cfg : Config) (d : gmap string bytes) :
  certDestKey cfg <> keyDestKey cfg ->
  copiedData cfg d !! certDestKey cfg = Some (map_index (Some d) (certSourceKey cfg)).
Proof.
  intros Hne. unfold copiedData.
  rewrite lookup_insert_ne by done. apply lookup_insert_eq.
Qed.

Lemma copiedData_keyDest (cfg : Config) (d : gmap string bytes) :
  certDestKey cfg <> keySourceKey cfg ->
  copiedData cfg d !! keyDestKey cfg = Some (map_index (Some d) (keySourceKey cfg)).
Proof.
  intros Hne. unfold copiedData. rewrite lookup_insert_eq.
  unfold map_index, map_index2. by rewrite lookup_insert_ne.
Qed.

(** The destination key field always ends up equal to the source key field
    as it stands after the first assignment. *)
Lemma copiedData_keyDest_post (cfg : Config) (d : gmap string bytes) :
  map_index (Some (copiedData cfg d)) (keyDestKey cfg)
  = map_index (Some (copiedData cfg d)) (keySourceKey cfg).
Proof.
  destruct (decide (keyDestKey cfg = keySourceKey cfg)) as [E|E].
  - by rewrite E.
  - unfold copiedData, map_index, map_index2.
    rewrite lookup_insert_eq, (lookup_insert_ne _ _ _ _ E). simpl.
    by destruct (_ !! keySourceKey cfg).
Qed.

(** Assigning into the zero [Secret], whose [Data] is nil, does panic. *)
Example assignData_nil_panics (w : FakeStore) :
  assignData emptySecret "issuer.crt" [] w = (Panic "assignment to entry in nil map", w, []).
Proof. reflexivity. Qed.

(** ** Reconcile *)

Example scenarioA_run :
  Reconcile cfgA bundleKey (storeOf (bundle staleData))
  = (Done (emptyResult, None),
     {| objects := {[ ("dapr-system", "dapr-trust-bundle") :=
          {| ObjNamespace := "dapr-system"; ObjName := "dapr-trust-bundle";
             ResourceVersion := 8; Data := Some freshData |} ]};
        updateFault := None |},
     [entryLog;
      EvGet bundleKey (GetOk (bundle staleData));
      EvUpdate (bundle freshData) None;
      EvLog (LogInfo 0 "Successful reconciliation")]).
Proof. vm_compute. reflexivity. Qed.

Example scenarioB_run :
  Reconcile cfgA bundleKey (storeOf (bundle freshData))
  = (Done (emptyResult, None), storeOf (bundle freshData),
     [entryLog;
      EvGet bundleKey (GetOk (bundle freshData));
      EvLog (LogInfo 0 "Already up-to-date")]).
Proof. vm_compute. reflexivity. Qed.

Example scenarioD_run :
  Reconcile cfgA bundleKey (faultyStoreOf (bundle staleData) (errorsNew "conflict"))
  = (Done (emptyResult, Some (errorsNew "could not update Secret: conflict")),
     faultyStoreOf (bundle staleData) (errorsNew "conflict"),
     [entryLog;
      EvGet bundleKey (GetOk (bundle staleData));
      EvUpdate (bundle freshData) (Some (errorsNew "conflict"));
      EvLog (LogError (errorsNew "conflict") "Failed to update secret")]).
Proof. vm_compute. reflexivity. Qed.

Example missing_secret_run :
  Reconcile cfgA bundleKey emptyStore
  = (Done (emptyResult, Some (errorsNew "not found")), emptyStore,
     [entryLog;
      EvGet bundleKey (GetErr (errorsNew "not found"));
      EvLog (LogError (errorsNew "not found") "Failed to get secret")]).
Proof. vm_compute. reflexivity. Qed.

Section ReconcileProperties.
Context {W : Type} `{Client W}.

(** C4. At steady state (the fetched payload needs no update) Reconcile
    issues no write and returns success; and when the next invocation
    again fetches a payload that needs no update, it too issues no
    write. *)
Theorem reconcile_steady_state (cfg : Config) (req : ObjectKey) (w : W)
    (s : Secret) (w1 : W) :
  Get req w = (GetOk s, w1) ->
  needsDaprTrustBundleSecretUpdate cfg s = false ->
  writes (trace (Reconcile cfg req w)) = 0
  /\ returnsSuccess (outcome (Reconcile cfg req w))
  /\ (forall s' w2,
        Get req (finalWorld (Reconcile cfg req w)) = (GetOk s', w2) ->
        needsDaprTrustBundleSecretUpdate cfg s' = false ->
        writes (trace (Reconcile cfg req (finalWorld (Reconcile cfg req w)))) = 0
        /\ returnsSuccess
             (outcome (Reconcile cfg req (finalWorld (Reconcile cfg req w))))).
Proof.
  assert (Hone : forall w0 s0 w0',
    Get req w0 = (GetOk s0, w0') ->
    needsDaprTrustBundleSecretUpdate cfg s0 = false ->
    writes (trace (Reconcile cfg req w0)) = 0
    /\ returnsSuccess (outcome (Reconcile cfg req w0))).
  { intros w0 s0 w0' Hg Hn.
    destruct (Reconcile_cases cfg req w0); try (split; reflexivity); congruence. }
  intros Hg Hn. destruct (Hone _ _ _ Hg Hn) as [Hw Hs].
  split; [done|]. split; [done|]. intros s' w2 Hg' Hn'. by eapply Hone.
Qed.

(** C5, amended. When the destination cert field is neither the source key
    field nor the destination key field (as under the default flags), a
    watched payload that needs an update is submitted exactly once, with
    the destination cert field holding the source cert bytes and the
    destination key field holding the source key bytes. *)
Theorem reconcile_copies_pair (cfg : Config) (req : ObjectKey) (w : W)
    (s : Secret) (w1 : W) :
  certDestKey cfg <> keySourceKey cfg ->
  certDestKey cfg <> keyDestKey cfg ->
  isDaprTrustBundleSecret cfg req = true ->
  Get req w = (GetOk s, w1) ->
  needsDaprTrustBundleSecretUpdate cfg s = true ->
  exists s',
    submitted (trace (Reconcile cfg req w)) = [s']
    /\ writes (trace (Reconcile cfg req w)) = 1
    /\ fieldPresent s' (certDestKey cfg)
    /\ fieldValue s' (certDestKey cfg) = fieldValue s (certSourceKey cfg)
    /\ fieldPresent s' (keyDestKey cfg)
    /\ fieldValue s' (keyDestKey cfg) = fieldValue s (keySourceKey cfg).
Proof.
  intros Hcs Hck Hw Hg Hn.
  destruct (needs_true_data cfg s Hn) as [d Hd].
  destruct (Update (withData s (copiedData cfg d)) w1) as [e w2] eqn:Hu.
  rewrite (Reconcile_written cfg req w s w1 d e w2 Hw Hg Hn Hd Hu).
  exists (withData s (copiedData cfg d)).
  pose proof (copiedData_certDest cfg d Hck) as Hc.
  pose proof (copiedData_keyDest cfg d Hcs) as Hk.
  split; [reflexivity|]. split; [reflexivity|].
  unfold fieldValue. rewrite Hd.
  repeat split.
  - apply fieldPresent_lookup. eauto.
  - eapply fieldValue_lookup; [reflexivity|exact Hc].
  - apply fieldPresent_lookup. eauto.
  - eapply fieldValue_lookup; [reflexivity|exact Hk].
Qed.

(** C6. For an identity other than the watched one, Reconcile performs no
    read and no write, leaves the store as it was and returns success. *)
Theorem reconcile_skips_unwatched (cfg : Config) (req : ObjectKey) (w : W) :
  isDaprTrustBundleSecret cfg req = false ->
  reads (trace (Reconcile cfg req w)) = 0
  /\ writes (trace (Reconcile cfg req w)) = 0
  /\ finalWorld (Reconcile cfg req w) = w
  /\ returnsSuccess (outcome (Reconcile cfg req w)).
Proof.
  intros Hw. rewrite (Reconcile_skipped cfg req w Hw). by repeat split.
Qed.

(** C7. Reconcile returns an error exactly when the read it makes of the
    store fails or the write it makes of the mutated payload fails (the
    identity being the watched one, else it makes neither call).  On a
    failed read it returns that error, has read once and attempts no
    write; on a failed write it has read once and written once.  In terms
    of its own events: an error is returned exactly when a call it made
    failed, and no call is ever repeated. *)
Theorem reconcile_failure_iff (cfg : Config) (req : ObjectKey) (w : W) :
  (returnsFailure (outcome (Reconcile cfg req w))
   <-> isDaprTrustBundleSecret cfg req = true
       /\ ((exists err w1, Get req w = (GetErr err, w1))
           \/ (exists s w1 d err w2,
                 Get req w = (GetOk s, w1)
                 /\ needsDaprTrustBundleSecretUpdate cfg s = true
                 /\ Data s = Some d
                 /\ Update (withData s (copiedData cfg d)) w1 = (Some err, w2))))
  /\ (forall err w1,
        isDaprTrustBundleSecret cfg req = true ->
        Get req w = (GetErr err, w1) ->
        returnedError (outcome (Reconcile cfg req w)) = Some err
        /\ reads (trace (Reconcile cfg req w)) = 1
        /\ writes (trace (Reconcile cfg req w)) = 0
        /\ finalWorld (Reconcile cfg req w) = w1)
  /\ (forall s w1 d err w2,
        isDaprTrustBundleSecret cfg req = true ->
        Get req w = (GetOk s, w1) ->
        needsDaprTrustBundleSecretUpdate cfg s = true ->
        Data s = Some d ->
        Update (withData s (copiedData cfg d)) w1 = (Some err, w2) ->
        returnsFailure (outcome (Reconcile cfg req w))
        /\ reads (trace (Reconcile cfg req w)) = 1
        /\ writes (trace (Reconcile cfg req w)) = 1
        /\ finalWorld (Reconcile cfg req w) = w2)
  /\ (returnsFailure (outcome (Reconcile cfg req w))
      <-> readFailed (trace (Reconcile cfg req w)) = true
          \/ writeFailed (trace (Reconcile cfg req w)) = true)
  /\ (readFailed (trace (Reconcile cfg req w)) = true ->
      writes (trace (Reconcile cfg req w)) = 0)
  /\ reads (trace (Reconcile cfg req w)) <= 1
  /\ writes (trace (Reconcile cfg req w)) <= 1
  /\ (returnsSuccess (outcome (Reconcile cfg req w))
      \/ returnsFailure (outcome (Reconcile cfg req w))).
Proof.
  split; [|split; [|split]].
  - (* failure against the store's answers *)
    unfold returnsFailure.
    destruct (Reconcile_cases cfg req w)
      as [Hw|err w1 Hw Hg|s w1 Hw Hg Hn|s w1 d e w2 Hw Hg Hn Hd Hu]; cbn.
    + split; [intros [err [=]]|intros [Hw' _]; congruence].
    + split; [|by eauto]. intros _. split; [done|]. left. eauto.
    + split; [intros [err [=]]|].
      intros [_ [(err & w1' & Hg')|(s' & w1' & d & err & w2 & Hg' & Hn' & _)]];
        [congruence|].
      assert (s' = s) as -> by congruence. congruence.
    + destruct e as [err|]; cbn.
      * split; [|by eauto]. intros _. split; [done|]. right.
        exists s, w1, d, err, w2. done.
      * split; [intros [err [=]]|].
        intros [_ [(err & w1' & Hg')|(s' & w1' & d' & err & w2' & Hg' & _ & Hd' & Hu')]];
          [congruence|].
        assert (s' = s) as -> by congruence.
        assert (w1' = w1) as -> by congruence.
        assert (d' = d) as -> by congruence.
        congruence.
  - (* a failed read *)
    intros err w1 Hw Hg.
    destruct (Reconcile_cases cfg req w)
      as [Hw'|err' w1' Hw' Hg'|s w1' Hw' Hg' Hn|s w1' d e w2 Hw' Hg' Hn Hd Hu];
      try congruence.
    assert (err' = err /\ w1' = w1) as [-> ->] by (split; congruence).
    by repeat split.
  - (* a failed write *)
    intros s w1 d err w2 Hw Hg Hn Hd Hu.
    rewrite (Reconcile_written cfg req w s w1 d (Some err) w2 Hw Hg Hn Hd Hu).
    unfold returnsFailure. cbn. repeat split. eauto.
  - (* failure against the events of the run *)
    unfold returnsFailure, returnsSuccess.
    destruct (Reconcile_cases cfg req w)
      as [Hw|err w1 Hw Hg|s w1 Hw Hg Hn|s w1 d e w2 Hw Hg Hn Hd Hu];
      [| | |destruct e as [err|]]; cbn.
    all: repeat match goal with
         | |- _ /\ _ => split
         | |- _ <-> _ => split
         end; try lia; try (intros; discriminate); eauto.
    all: try (intros [[err' Hf]|[err' Hf]]; discriminate).
    all: try (intros [err' Hf]; discriminate).
    all: try (intros [Hf|Hf]; discriminate).
Qed.

(** C8, amended. On the write path every field other than the two
    destination fields is submitted as it was fetched (present or absent,
    and with the same bytes); so is each source field, provided it is not
    itself named as a destination; no fetched field is missing from what
    is submitted; and the object's identity and resource version are
    unchanged. *)
Theorem reconcile_frame (cfg : Config) (req : ObjectKey) (w : W)
    (s : Secret) (w1 : W) :
  isDaprTrustBundleSecret cfg req = true ->
  Get req w = (GetOk s, w1) ->
  needsDaprTrustBundleSecretUpdate cfg s = true ->
  exists s',
    submitted (trace (Reconcile cfg req w)) = [s']
    /\ (forall f, f <> certDestKey cfg -> f <> keyDestKey cfg ->
                  map_index2 (Data s') f = map_index2 (Data s) f)
    /\ (forall f, fieldPresent s f -> fieldPresent s' f)
    /\ ObjNamespace s' = ObjNamespace s
    /\ ObjName s' = ObjName s
    /\ ResourceVersion s' = ResourceVersion s
    /\ (certSourceKey cfg <> certDestKey cfg ->
        certSourceKey cfg <> keyDestKey cfg ->
        map_index2 (Data s') (certSourceKey cfg)
        = map_index2 (Data s) (certSourceKey cfg))
    /\ (keySourceKey cfg <> certDestKey cfg ->
        keySourceKey cfg <> keyDestKey cfg ->
        map_index2 (Data s') (keySourceKey cfg)
        = map_index2 (Data s) (keySourceKey cfg)).
Proof.
  intros Hw Hg Hn.
  destruct (needs_true_data cfg s Hn) as [d Hd].
  destruct (Update (withData s (copiedData cfg d)) w1) as [e w2] eqn:Hu.
  rewrite (Reconcile_written cfg req w s w1 d e w2 Hw Hg Hn Hd Hu).
  exists (withData s (copiedData cfg d)).
  split; [reflexivity|]. rewrite Hd. cbn.
  assert (Hframe : forall f, f <> certDestKey cfg -> f <> keyDestKey cfg ->
            map_index2 (Some (copiedData cfg d)) f = map_index2 (Some d) f).
  { intros f Hc Hk. unfold map_index2. by rewrite copiedData_other. }
  split; [exact Hframe|].
  split.
  { intros f (d' & v & Hd' & Hv)%fieldPresent_lookup.
    assert (d' = d) as -> by congruence.
    destruct (copiedData_keeps cfg d f) as [v' Hv']; [eauto|].
    apply fieldPresent_lookup. exists (copiedData cfg d), v'. done. }
  repeat split; try reflexivity; intros; by apply Hframe.
Qed.
End ReconcileProperties.

Lemma reconcile_steady_state_witness :
  writes (trace (Reconcile cfgA bundleKey (storeOf (bundle freshData)))) = 0
  /\ returnsSuccess (outcome (Reconcile cfgA bundleKey (storeOf (bundle freshData))))
  /\ writes (trace (Reconcile cfgA bundleKey
               (finalWorld (Reconcile cfgA bundleKey (storeOf (bundle freshData)))))) = 0.
Proof.
  destruct (reconcile_steady_state cfgA bundleKey (storeOf (bundle freshData))
              (bundle freshData) (storeOf (bundle freshData)))
    as (Hw & Hs & Hnext).
  - vm_compute; reflexivity.
  - vm_compute; reflexivity.
  - split; [exact Hw|]. split; [exact Hs|].
    apply (Hnext (bundle freshData) (storeOf (bundle freshData))).
    + vm_compute; reflexivity.
    + vm_compute; reflexivity.
Defined.

(** C5, as stated, fails when both destinations name one field: the cert
    destination is overwritten by the second assignment and is submitted
    holding the source key bytes. *)
Lemma shared_dest_overwrites_cert :
  isDaprTrustBundleSecret cfgSharedDest bundleKey = true
  /\ Get bundleKey (storeOf (bundle sourcesOnlyData))
     = (GetOk (bundle sourcesOnlyData), storeOf (bundle sourcesOnlyData))
  /\ needsDaprTrustBundleSecretUpdate cfgSharedDest (bundle sourcesOnlyData) = true
  /\ submitted (trace (Reconcile cfgSharedDest bundleKey (storeOf (bundle sourcesOnlyData))))
     = [bundle sharedDestResult]
  /\ fieldValue (bundle sharedDestResult) (certDestKey cfgSharedDest) = b "K1"
  /\ fieldValue (bundle sourcesOnlyData) (certSourceKey cfgSharedDest) = b "C1"
  /\ fieldValue (bundle sharedDestResult) (certDestKey cfgSharedDest)
     <> fieldValue (bundle sourcesOnlyData) (certSourceKey cfgSharedDest).
Proof. repeat split; vm_compute; (reflexivity || discriminate). Qed.

(** Likewise when the cert destination is the key source: the second
    assignment reads the field the first one has just overwritten, and the
    key destination is submitted holding the source cert bytes. *)
Example crossed_dest_copies_cert_twice :
  needsDaprTrustBundleSecretUpdate cfgCrossed (bundle sourcesOnlyData) = true
  /\ submitted (trace (Reconcile cfgCrossed bundleKey (storeOf (bundle sourcesOnlyData))))
     = [bundle crossedResult]
  /\ fieldValue (bundle crossedResult) (keyDestKey cfgCrossed) = b "C1"
  /\ fieldValue (bundle sourcesOnlyData) (keySourceKey cfgCrossed) = b "K1".
Proof. repeat split; vm_compute; reflexivity. Qed.

Lemma reconcile_copies_pair_witness :
  exists s',
    submitted (trace (Reconcile cfgA bundleKey (storeOf (bundle staleData)))) = [s']
    /\ writes (trace (Reconcile cfgA bundleKey (storeOf (bundle staleData)))) = 1
    /\ fieldPresent s' "issuer.crt"
    /\ fieldValue s' "issuer.crt" = fieldValue (bundle staleData) "tls.crt"
    /\ fieldPresent s' "issuer.key"
    /\ fieldValue s' "issuer.key" = fieldValue (bundle staleData) "tls.key".
Proof.
  apply (reconcile_copies_pair cfgA bundleKey (storeOf (bundle staleData))
           (bundle staleData) (storeOf (bundle staleData))).
  - vm_compute; discriminate.
  - vm_compute; discriminate.
  - vm_compute; reflexivity.
  - vm_compute; reflexivity.
  - vm_compute; reflexivity.
Defined.

Lemma reconcile_skips_unwatched_witness :
  reads (trace (Reconcile cfgA otherKey (storeOf (bundle staleData)))) = 0
  /\ writes (trace (Reconcile cfgA otherKey (storeOf (bundle staleData)))) = 0
  /\ finalWorld (Reconcile cfgA otherKey (storeOf (bundle staleData)))
     = storeOf (bundle staleData)
  /\ returnsSuccess (outcome (Reconcile cfgA otherKey (storeOf (bundle staleData)))).
Proof.
  apply (reconcile_skips_unwatched cfgA otherKey (storeOf (bundle staleData))).
  vm_compute; reflexivity.
Defined.

Lemma reconcile_frame_witness :
  exists s',
    submitted (trace (Reconcile cfgA bundleKey (storeOf (bundle staleData)))) = [s']
    /\ (forall f, f <> "issuer.crt" -> f <> "issuer.key" ->
                  map_index2 (Data s') f = map_index2 (Data (bundle staleData)) f)
    /\ (forall f, fieldPresent (bundle staleData) f -> fieldPresent s' f)
    /\ ObjNamespace s' = "dapr-system"
    /\ ObjName s' = "dapr-trust-bundle"
    /\ ResourceVersion s' = 7
    /\ map_index2 (Data s') "tls.crt" = (b "C1", true)
    /\ map_index2 (Data s') "tls.key" = (b "K1", true).
Proof.
  destruct (reconcile_frame cfgA bundleKey (storeOf (bundle staleData))
              (bundle staleData) (storeOf (bundle staleData)))
    as (s' & Hsub & Hframe & Hkeep & Hns & Hname & Hrv & Hcs & Hks).
  - vm_compute; reflexivity.
  - vm_compute; reflexivity.
  - vm_compute; reflexivity.
  - exists s'. repeat split; try assumption.
    + refine (eq_trans (Hcs _ _) _);
        [vm_compute; discriminate | vm_compute; discriminate
        | vm_compute; reflexivity].
    + refine (eq_trans (Hks _ _) _);
        [vm_compute; discriminate | vm_compute; discriminate
        | vm_compute; reflexivity].
Defined.

(** C8, as stated, fails when the cert destination is the key source: the
    first assignment overwrites the source key field, which is submitted
    holding the cert bytes. *)
Lemma crossed_dest_overwrites_key_source :
  isDaprTrustBundleSecret cfgCrossed bundleKey = true
  /\ Get bundleKey (storeOf (bundle sourcesOnlyData))
     = (GetOk (bundle sourcesOnlyData), storeOf (bundle sourcesOnlyData))
  /\ needsDaprTrustBundleSecretUpdate cfgCrossed (bundle sourcesOnlyData) = true
  /\ submitted (trace (Reconcile cfgCrossed bundleKey (storeOf (bundle sourcesOnlyData))))
     = [bundle crossedResult]
  /\ fieldValue (bundle sourcesOnlyData) (keySourceKey cfgCrossed) = b "K1"
  /\ fieldValue (bundle crossedResult) (keySourceKey cfgCrossed) = b "C1"
  /\ fieldValue (bundle crossedResult) (keySourceKey cfgCrossed)
     <> fieldValue (bundle sourcesOnlyData) (keySourceKey cfgCrossed).
Proof. repeat split; vm_compute; (reflexivity || discriminate). Qed.

(** C9. A payload that needs an update has a non-nil [Data] map, so the
    two assignments of Reconcile never hit a nil map: every invocation
    returns, none panics. *)
Theorem reconcile_never_assigns_nil (cfg : Config) :
  (forall s, needsDaprTrustBundleSecretUpdate cfg s = true -> exists d, Data s = Some d)
  /\ (forall s, Data s = None -> needsDaprTrustBundleSecretUpdate cfg s = false)
  /\ (forall (W : Type) (client : Client W) (req : ObjectKey) (w : W),
        exists r, outcome (Reconcile cfg req w) = Done r).
Proof.
  split; [apply needs_true_data|]. split.
  - intros s Hd.
    destruct (needsDaprTrustBundleSecretUpdate cfg s) eqn:Hn; [|reflexivity].
    destruct (needs_true_data cfg s Hn) as [d Hd']. congruence.
  - intros W client req w. destruct (Reconcile_cases cfg req w); cbn; eauto.
Qed.

(** C10. When the destination keys are the source keys, no payload needs an
    update, and Reconcile never issues a write. *)
Theorem aliased_config_never_writes (cfg : Config) :
  certDestKey cfg = certSourceKey cfg ->
  keyDestKey cfg = keySourceKey cfg ->
  (forall s, needsDaprTrustBundleSecretUpdate cfg s = false)
  /\ (forall (W : Type) (client : Client W) (req : ObjectKey) (w : W),
        writes (trace (Reconcile cfg req w)) = 0).
Proof.
  intros Hc Hk.
  assert (Hnever : forall s, needsDaprTrustBundleSecretUpdate cfg s = false).
  { intros s. rewrite needs_unfold, Hc, Hk, !bool_decide_eq_true_2 by reflexivity.
    cbn. apply andb_false_r. }
  split; [exact Hnever|].
  intros W client req w.
  destruct (Reconcile_cases cfg req w) as [| | |s w1 d e w2 Hw Hg Hn]; try reflexivity.
  rewrite Hnever in Hn. discriminate.
Qed.

Lemma aliased_config_never_writes_witness :
  needsDaprTrustBundleSecretUpdate cfgAliased (bundle staleData) = false
  /\ writes (trace (Reconcile cfgAliased bundleKey (storeOf (bundle staleData)))) = 0.
Proof.
  destruct (aliased_config_never_writes cfgAliased) as [Hn Hw].
  - reflexivity.
  - reflexivity.
  - split; [apply Hn | apply (Hw FakeStore fakeClient)].
Defined.

(** ** When Reconcile reads and writes *)

Section ReconcileEffects.
Context {W : Type} `{Client W}.

(** X1. Reconcile issues a write exactly when the identity is the watched
    one, the read succeeds and the fetched payload needs an update. *)
Theorem reconcile_writes_iff (cfg : Config) (req : ObjectKey) (w : W) :
  writes (trace (Reconcile cfg req w)) = 1
  <-> isDaprTrustBundleSecret cfg req = true
      /\ exists s w1, Get req w = (GetOk s, w1)
                      /\ needsDaprTrustBundleSecretUpdate cfg s = true.
Proof.
  destruct (Reconcile_cases cfg req w)
    as [Hw|err w1 Hw Hg|s w1 Hw Hg Hn|s w1 d e w2 Hw Hg Hn Hd Hu]; cbn.
  - split; [discriminate|]. intros [Hw' _]. congruence.
  - split; [discriminate|]. intros (_ & s & w1' & Hg' & _). congruence.
  - split; [discriminate|]. intros (_ & s' & w1' & Hg' & Hn').
    assert (s' = s) as -> by congruence. congruence.
  - split; [|reflexivity]. intros _. eauto.
Qed.

(** X2. The closures [main] installs as CreateFunc and UpdateFunc apply
    Reconcile's own guard to the object the event carries (the new one,
    for an update): for the key of an object a closure accepts, Reconcile
    reads the store once; for the key of an object it rejects, Reconcile
    neither reads nor writes. *)
Theorem filter_closures_match_reconcile_guard (cfg : Config)
    (objOld obj : Secret) (w : W) :
  (CreateFunc cfg {| Object := obj |} = true
   <-> reads (trace (Reconcile cfg (ObjectKeyFromObject obj) w)) = 1)
  /\ (CreateFunc cfg {| Object := obj |} = false
      <-> reads (trace (Reconcile cfg (ObjectKeyFromObject obj) w)) = 0
          /\ writes (trace (Reconcile cfg (ObjectKeyFromObject obj) w)) = 0)
  /\ (UpdateFunc cfg {| ObjectOld := objOld; ObjectNew := obj |} = true
      <-> reads (trace (Reconcile cfg (ObjectKeyFromObject obj) w)) = 1)
  /\ (UpdateFunc cfg {| ObjectOld := objOld; ObjectNew := obj |} = false
      <-> reads (trace (Reconcile cfg (ObjectKeyFromObject obj) w)) = 0
          /\ writes (trace (Reconcile cfg (ObjectKeyFromObject obj) w)) = 0).
Proof.
  unfold UpdateFunc, CreateFunc. cbn [Object ObjectNew].
  destruct (Reconcile_cases cfg (ObjectKeyFromObject obj) w)
    as [Hw|err w1 Hw Hg|s w1 Hw Hg Hn|s w1 d e w2 Hw Hg Hn Hd Hu];
    rewrite Hw; cbn; repeat split; try done; intros [? ?]; done.
Qed.

(** X3. A payload lacking a source field (in particular one whose data map
    is nil) is left alone: no write, no error, whatever the destination
    fields hold. *)
Theorem reconcile_missing_source (cfg : Config) (req : ObjectKey) (w : W)
    (s : Secret) (w1 : W) :
  Get req w = (GetOk s, w1) ->
  ~ fieldPresent s (certSourceKey cfg) \/ ~ fieldPresent s (keySourceKey cfg) ->
  writes (trace (Reconcile cfg req w)) = 0
  /\ submitted (trace (Reconcile cfg req w)) = []
  /\ returnsSuccess (outcome (Reconcile cfg req w)).
Proof.
  intros Hg Habs.
  assert (Hn : needsDaprTrustBundleSecretUpdate cfg s = false).
  { destruct (needsDaprTrustBundleSecretUpdate cfg s) eqn:Hn; [|reflexivity].
    apply needs_true_iff in Hn as (Hc & Hk & _). tauto. }
  destruct (Reconcile_cases cfg req w)
    as [Hw|err w1' Hw Hg'|s' w1' Hw Hg' Hn'|s' w1' d e w2 Hw Hg' Hn' Hd Hu];
    try (by repeat split).
  - congruence.
  - assert (s' = s) as -> by congruence. congruence.
Qed.

(** X4. An error returned by Reconcile is either the error value the read
    gave, returned as it is, or a new plain error whose message is
    "could not update Secret: " followed by the text [%+v] prints for the
    error the write gave; in both cases the underlying error has been
    logged. *)
Theorem reconcile_error_provenance (cfg : Config) (req : ObjectKey) (w : W)
    (e : error) :
  returnedError (outcome (Reconcile cfg req w)) = Some e ->
  (exists w1, Get req w = (GetErr e, w1)
              /\ In (EvLog (LogError e "Failed to get secret"))
                    (trace (Reconcile cfg req w)))
  \/ (exists s w1 obj err w2,
        Get req w = (GetOk s, w1)
        /\ Update obj w1 = (Some err, w2)
        /\ e = errorsNew ("could not update Secret: " ++ plusVText err)
        /\ In (EvUpdate obj (Some err)) (trace (Reconcile cfg req w))
        /\ In (EvLog (LogError err "Failed to update secret"))
              (trace (Reconcile cfg req w))).
Proof.
  destruct (Reconcile_cases cfg req w)
    as [Hw|err w1 Hw Hg|s w1 Hw Hg Hn|s w1 d e' w2 Hw Hg Hn Hd Hu]; cbn;
    try discriminate.
  - intros [= <-]. left. exists w1. split; [done|]. right. right. by left.
  - destruct e' as [err|]; cbn; [|discriminate].
    intros [= <-]. right.
    exists s, w1, (withData s (copiedData cfg d)), err, w2.
    split; [done|]. split; [done|]. split; [reflexivity|]. split.
    + right. right. by left.
    + right. right. right. by left.
Qed.

(** X5. Every run starts with the entry line; an error line is logged
    exactly when Reconcile returns an error. *)
Theorem reconcile_logs_error_iff_failure (cfg : Config) (req : ObjectKey) (w : W) :
  head (trace (Reconcile cfg req w)) = Some entryLog
  /\ (existsb isErrorLog (trace (Reconcile cfg req w)) = true
      <-> returnsFailure (outcome (Reconcile cfg req w))).
Proof.
  unfold returnsFailure.
  destruct (Reconcile_cases cfg req w)
    as [Hw|err w1 Hw Hg|s w1 Hw Hg Hn|s w1 d e w2 Hw Hg Hn Hd Hu];
    [| | |destruct e as [err|]]; cbn; (split; [reflexivity|]);
    split; try discriminate; eauto; intros [? ?]; discriminate.
Qed.
End ReconcileEffects.

Lemma reconcile_missing_source_witness :
  writes (trace (Reconcile cfgA bundleKey (storeOf nilDataBundle))) = 0
  /\ submitted (trace (Reconcile cfgA bundleKey (storeOf nilDataBundle))) = []
  /\ returnsSuccess (outcome (Reconcile cfgA bundleKey (storeOf nilDataBundle))).
Proof.
  apply (reconcile_missing_source cfgA bundleKey (storeOf nilDataBundle)
           nilDataBundle (storeOf nilDataBundle)).
  - vm_compute; reflexivity.
  - left. vm_compute. discriminate.
Defined.

Lemma reconcile_error_provenance_witness :
  exists err,
    returnedError (outcome (Reconcile cfgA bundleKey
                              (faultyStoreOf (bundle staleData) verboseConflict)))
    = Some (errorsNew ("could not update Secret: " ++ plusVText err))
    /\ In (EvLog (LogError err "Failed to update secret"))
          (trace (Reconcile cfgA bundleKey
                    (faultyStoreOf (bundle staleData) verboseConflict))).
Proof.
  destruct (reconcile_error_provenance cfgA bundleKey
              (faultyStoreOf (bundle staleData) verboseConflict)
              (errorsNew "could not update Secret: conflict: resource version 7 is stale"))
    as [(w1 & Hg & _)|(s & w1 & obj & err & w2 & _ & _ & He & _ & Hlog)].
  - vm_compute; reflexivity.
  - vm_compute in Hg. discriminate.
  - exists err. split; [|exact Hlog].
    rewrite <- He. vm_compute; reflexivity.
Defined.

(** ** What the update test looks at *)

(** X6. The update test reads the four configured fields and nothing else:
    two objects that agree on them (presence and bytes) get the same
    answer, whatever their other fields, identity or resource version. *)
Theorem needsUpdate_four_fields (cfg : Config) (s s' : Secret) :
  map_index2 (Data s) (certSourceKey cfg) = map_index2 (Data s') (certSourceKey cfg) ->
  map_index2 (Data s) (keySourceKey cfg) = map_index2 (Data s') (keySourceKey cfg) ->
  map_index2 (Data s) (certDestKey cfg) = map_index2 (Data s') (certDestKey cfg) ->
  map_index2 (Data s) (keyDestKey cfg) = map_index2 (Data s') (keyDestKey cfg) ->
  needsDaprTrustBundleSecretUpdate cfg s = needsDaprTrustBundleSecretUpdate cfg s'.
Proof.
  intros Hcs Hks Hcd Hkd. unfold needsDaprTrustBundleSecretUpdate.
  by rewrite Hcs, Hks, Hcd, Hkd.
Qed.

Lemma needsUpdate_data_only (cfg : Config) (s s' : Secret) :
  Data s = Data s' ->
  needsDaprTrustBundleSecretUpdate cfg s = needsDaprTrustBundleSecretUpdate cfg s'.
Proof.
  intros Hd. unfold needsDaprTrustBundleSecretUpdate. by rewrite Hd.
Qed.

Lemma needsUpdate_four_fields_witness :
  needsDaprTrustBundleSecretUpdate cfgA (bundle staleData)
  = needsDaprTrustBundleSecretUpdate cfgA staleBundleWithCA.
Proof.
  apply (needsUpdate_four_fields cfgA (bundle staleData) staleBundleWithCA);
    vm_compute; reflexivity.
Defined.

(** ** Reaching, or missing, the steady state *)

Lemma fieldValue_withData (s : Secret) (d : gmap string bytes) (k : string) :
  fieldValue (withData s d) k = default [] (d !! k).
Proof.
  unfold fieldValue, map_index, withData. cbn [Data].
  by rewrite map_index2_Some.
Qed.

Lemma fieldPresent_withData (s : Secret) (d : gmap string bytes) (k : string) :
  fieldPresent (withData s d) k <-> is_Some (d !! k).
Proof.
  rewrite fieldPresent_lookup. cbn [withData Data]. split.
  - intros (d' & v & [= <-] & Hv). eauto.
  - intros [v Hv]. eauto.
Qed.

(** After the copy the cert pair is equal unless the key destination is
    the cert destination or the cert source. *)
Lemma copiedData_cert_pair (cfg : Config) (s : Secret) (d : gmap string bytes) :
  keyDestKey cfg <> certDestKey cfg ->
  keyDestKey cfg <> certSourceKey cfg ->
  fieldValue (withData s (copiedData cfg d)) (certDestKey cfg)
  = fieldValue (withData s (copiedData cfg d)) (certSourceKey cfg).
Proof.
  intros Hcd Hcs. rewrite !fieldValue_withData. unfold copiedData.
  rewrite !(lookup_insert_ne _ (keyDestKey cfg)) by done.
  rewrite lookup_insert_eq. cbn.
  destruct (decide (certDestKey cfg = certSourceKey cfg)) as [E|E].
  - rewrite <- E at 2. by rewrite lookup_insert_eq.
  - rewrite lookup_insert_ne by done.
    unfold map_index, map_index2. by destruct (d !! certSourceKey cfg).
Qed.

Lemma copiedData_key_pair (cfg : Config) (s : Secret) (d : gmap string bytes) :
  fieldValue (withData s (copiedData cfg d)) (keyDestKey cfg)
  = fieldValue (withData s (copiedData cfg d)) (keySourceKey cfg).
Proof. apply copiedData_keyDest_post. Qed.

Section SteadyState.
Context {W : Type} `{Client W}.

(** X7. When the key destination is neither the cert destination nor the
    cert source (as under the default flags), what Reconcile submits needs
    no further update; so if the next read returns the data just
    submitted, the next invocation issues no write. *)
Theorem reconcile_reaches_steady_state (cfg : Config) (req : ObjectKey) (w : W)
    (s : Secret) (w1 : W) :
  keyDestKey cfg <> certDestKey cfg ->
  keyDestKey cfg <> certSourceKey cfg ->
  isDaprTrustBundleSecret cfg req = true ->
  Get req w = (GetOk s, w1) ->
  needsDaprTrustBundleSecretUpdate cfg s = true ->
  exists s',
    submitted (trace (Reconcile cfg req w)) = [s']
    /\ needsDaprTrustBundleSecretUpdate cfg s' = false
    /\ (forall (w' : W) (s2 : Secret) (w2 : W),
          Get req w' = (GetOk s2, w2) ->
          Data s2 = Data s' ->
          writes (trace (Reconcile cfg req w')) = 0).
Proof.
  intros Hcd Hcs Hw Hg Hn.
  destruct (needs_true_data cfg s Hn) as [d Hd].
  destruct (Update (withData s (copiedData cfg d)) w1) as [e w2] eqn:Hu.
  rewrite (Reconcile_written cfg req w s w1 d e w2 Hw Hg Hn Hd Hu).
  exists (withData s (copiedData cfg d)).
  assert (Hfix : needsDaprTrustBundleSecretUpdate cfg (withData s (copiedData cfg d)) = false).
  { apply needs_false_when_equal;
      [by apply copiedData_cert_pair | apply copiedData_key_pair]. }
  split; [reflexivity|]. split; [exact Hfix|].
  intros w' s2 w2' Hg' Hdata.
  assert (Hn2 : needsDaprTrustBundleSecretUpdate cfg s2 = false).
  { rewrite <- Hfix. apply needsUpdate_data_only. exact Hdata. }
  destruct (Reconcile_cases cfg req w')
    as [Hw'|err w1' Hw' Hg''|s'' w1' Hw' Hg'' Hn'|s'' w1' d' e' w2'' Hw' Hg'' Hn' Hd' Hu'];
    try reflexivity.
  assert (s'' = s2) as -> by congruence. congruence.
Qed.

(** X8. When both destinations name one field that is not a source, a
    payload whose cert and key bytes differ needs an update both before
    and after Reconcile's copy: what is submitted still needs an update,
    so the steady state is never reached. *)
Theorem reconcile_shared_dest_never_settles (cfg : Config) (req : ObjectKey) (w : W)
    (s : Secret) (w1 : W) :
  certDestKey cfg = keyDestKey cfg ->
  certDestKey cfg <> certSourceKey cfg ->
  certDestKey cfg <> keySourceKey cfg ->
  fieldPresent s (certSourceKey cfg) ->
  fieldPresent s (keySourceKey cfg) ->
  fieldValue s (certSourceKey cfg) <> fieldValue s (keySourceKey cfg) ->
  isDaprTrustBundleSecret cfg req = true ->
  Get req w = (GetOk s, w1) ->
  needsDaprTrustBundleSecretUpdate cfg s = true
  /\ exists s',
       submitted (trace (Reconcile cfg req w)) = [s']
       /\ needsDaprTrustBundleSecretUpdate cfg s' = true.
Proof.
  intros Hsh Hcs Hks Hpc Hpk Hdiff Hw Hg.
  assert (Hn : needsDaprTrustBundleSecretUpdate cfg s = true).
  { apply needs_true_iff. split; [done|]. split; [done|].
    rewrite <- Hsh.
    destruct (decide (fieldValue s (certDestKey cfg) = fieldValue s (certSourceKey cfg)))
      as [E|E]; [right; congruence | by left]. }
  split; [exact Hn|].
  destruct (needs_true_data cfg s Hn) as [d Hd].
  destruct (Update (withData s (copiedData cfg d)) w1) as [e w2] eqn:Hu.
  rewrite (Reconcile_written cfg req w s w1 d e w2 Hw Hg Hn Hd Hu).
  exists (withData s (copiedData cfg d)). split; [reflexivity|].
  apply fieldPresent_lookup in Hpc as (dc & c & Hdc & Hc).
  apply fieldPresent_lookup in Hpk as (dk & k & Hdk & Hk).
  assert (dc = d) as -> by congruence. assert (dk = d) as -> by congruence.
  rewrite (fieldValue_lookup s d _ c Hd Hc), (fieldValue_lookup s d _ k Hd Hk) in Hdiff.
  assert (Hcs' : copiedData cfg d !! certSourceKey cfg = Some c).
  { rewrite copiedData_other; [done|congruence|congruence]. }
  assert (Hks' : copiedData cfg d !! keySourceKey cfg = Some k).
  { rewrite copiedData_other; [done|congruence|congruence]. }
  assert (Hcd' : copiedData cfg d !! certDestKey cfg = Some k).
  { rewrite Hsh. rewrite copiedData_keyDest by done.
    unfold map_index, map_index2. by rewrite Hk. }
  apply needs_true_iff.
  split; [apply fieldPresent_withData; eauto|].
  split; [apply fieldPresent_withData; eauto|].
  left. rewrite !fieldValue_withData, Hcd', Hcs'. cbn. congruence.
Qed.
End SteadyState.

Lemma reconcile_reaches_steady_state_witness :
  exists s',
    submitted (trace (Reconcile cfgA bundleKey (storeOf (bundle staleData)))) = [s']
    /\ needsDaprTrustBundleSecretUpdate cfgA s' = false
    /\ (forall (w' : FakeStore) (s2 : Secret) (w2 : FakeStore),
          Get bundleKey w' = (GetOk s2, w2) ->
          Data s2 = Data s' ->
          writes (trace (Reconcile cfgA bundleKey w')) = 0).
Proof.
  apply (reconcile_reaches_steady_state cfgA bundleKey (storeOf (bundle staleData))
           (bundle staleData) (storeOf (bundle staleData))).
  - vm_compute; discriminate.
  - vm_compute; discriminate.
  - vm_compute; reflexivity.
  - vm_compute; reflexivity.
  - vm_compute; reflexivity.
Defined.

Lemma reconcile_shared_dest_never_settles_witness :
  needsDaprTrustBundleSecretUpdate cfgSharedDest (bundle sourcesOnlyData) = true
  /\ exists s',
       submitted (trace (Reconcile cfgSharedDest bundleKey
                           (storeOf (bundle sourcesOnlyData)))) = [s']
       /\ needsDaprTrustBundleSecretUpdate cfgSharedDest s' = true.
Proof.
  apply (reconcile_shared_dest_never_settles cfgSharedDest bundleKey
           (storeOf (bundle sourcesOnlyData)) (bundle sourcesOnlyData)
           (storeOf (bundle sourcesOnlyData))).
  - reflexivity.
  - vm_compute; discriminate.
  - vm_compute; discriminate.
  - vm_compute; reflexivity.
  - vm_compute; reflexivity.
  - vm_compute; discriminate.
  - vm_compute; reflexivity.
  - vm_compute; reflexivity.
Defined.

(** ** Startup *)

(** X9. When [main] gets as far as creating the manager, no version was
    asked for, the namespace it watches is not empty (the flag's value if
    one was given, else that of POD_NAMESPACE), the other five variables
    are as the flags left them, and so no identity with an empty
    namespace is ever taken for the trust bundle. *)
Theorem main_startup_started (progname version : string) (showVersion : bool)
    (cfg cfg' : Config) (getenv : string -> string) :
  main_startup progname version showVersion cfg getenv = Started cfg' ->
  showVersion = false
  /\ daprTrustBundleNamespace cfg' <> ""
  /\ daprTrustBundleNamespace cfg'
     = (if bool_decide (daprTrustBundleNamespace cfg = "")
        then getenv "POD_NAMESPACE" else daprTrustBundleNamespace cfg)
  /\ daprTrustBundleName cfg' = daprTrustBundleName cfg
  /\ certSourceKey cfg' = certSourceKey cfg
  /\ certDestKey cfg' = certDestKey cfg
  /\ keySourceKey cfg' = keySourceKey cfg
  /\ keyDestKey cfg' = keyDestKey cfg
  /\ (forall name, isDaprTrustBundleSecret cfg' {| Namespace := ""; Name := name |} = false).
Proof.
  unfold main_startup. destruct showVersion; [discriminate|].
  assert (Hnw : forall c, daprTrustBundleNamespace c <> "" ->
            forall name, isDaprTrustBundleSecret c {| Namespace := ""; Name := name |} = false).
  { intros c Hne name. unfold isDaprTrustBundleSecret. cbn.
    rewrite bool_decide_eq_false_2; [reflexivity|congruence]. }
  destruct (bool_decide (daprTrustBundleNamespace cfg = "")) eqn:Hns.
  - destruct (bool_decide (getenv "POD_NAMESPACE" = "")) eqn:Hpod; [discriminate|].
    apply bool_decide_eq_false in Hpod. intros [= <-]. cbn.
    repeat split; try done. by apply Hnw.
  - apply bool_decide_eq_false in Hns. intros [= <-].
    repeat split; try done. by apply Hnw.
Qed.

Lemma main_startup_started_witness :
  daprTrustBundleNamespace cfgA <> ""
  /\ daprTrustBundleName cfgA = daprTrustBundleName defaultConfig
  /\ (forall name, isDaprTrustBundleSecret cfgA {| Namespace := ""; Name := name |} = false).
Proof.
  destruct (main_startup_started "dapr-cert-transformer" "0.1.0" false
              defaultConfig cfgA (envOf "dapr-system"))
    as (_ & Hne & _ & Hname & _ & _ & _ & _ & Hnever).
  - vm_compute; reflexivity.
  - split; [exact Hne|]. split; [exact Hname|exact Hnever].
Defined.

(** X10. In the part of [main] between the return of [parseFlags] and
    the call of [manager.New] there are two exits only: with status 0,
    having printed "<progname> version <version>" and logged nothing, when
    the version was asked for (whatever the namespace); and with status 1
    and one logged error exactly when no version was asked for, the
    namespace flag is empty and POD_NAMESPACE is empty or unset.  (Flag
    parsing before it and the creation of the manager after it can end
    the process on their own; they are outside this part.) *)
Theorem main_startup_exits (progname version : string) (showVersion : bool)
    (cfg : Config) (getenv : string -> string) :
  (showVersion = true ->
   main_startup progname version showVersion cfg getenv
   = Exited 0 (progname ++ " version " ++ version ++ newline) [])
  /\ ((exists out logged,
         main_startup progname version showVersion cfg getenv = Exited 1 out logged)
      <-> showVersion = false
          /\ daprTrustBundleNamespace cfg = ""
          /\ getenv "POD_NAMESPACE" = "")
  /\ (forall code out logged,
        main_startup progname version showVersion cfg getenv = Exited code out logged ->
        (code = 0 /\ showVersion = true) \/ (code = 1 /\ out = "" /\ exists l, logged = [l])).
Proof.
  unfold main_startup. split; [by intros ->|].
  destruct showVersion.
  { split.
    - split; [intros (out & lg & [=])|intros [[=] _]].
    - intros code out lg [= <- <- <-]. by left. }
  destruct (bool_decide (daprTrustBundleNamespace cfg = "")) eqn:Hns.
  - apply bool_decide_eq_true in Hns.
    destruct (bool_decide (getenv "POD_NAMESPACE" = "")) eqn:Hpod.
    + apply bool_decide_eq_true in Hpod. split.
      * split; [done|]. intros _. eauto.
      * intros code out lg [= <- <- <-]. right. eauto.
    + apply bool_decide_eq_false in Hpod. split.
      * split; [intros (out & lg & [=])|intros (_ & _ & Hp); done].
      * intros code out lg [=].
  - apply bool_decide_eq_false in Hns. split.
    + split; [intros (out & lg & [=])|intros (_ & Hn & _); done].
    + intros code out lg [=].
Qed.

(** ** The key pair after the copy *)

(** X11. Whatever the flags, in what Reconcile submits the key destination
    holds the same bytes as the key source field of that same object: the
    second assignment is the last one, so only the cert pair can be left
    unequal by aliased field names. *)
Theorem reconcile_key_pair_equal (W : Type) (client : Client W)
    (cfg : Config) (req : ObjectKey) (w : W) (s : Secret) (w1 : W) :
  isDaprTrustBundleSecret cfg req = true ->
  Get req w = (GetOk s, w1) ->
  needsDaprTrustBundleSecretUpdate cfg s = true ->
  exists s',
    submitted (trace (Reconcile cfg req w)) = [s']
    /\ fieldPresent s' (keyDestKey cfg)
    /\ fieldValue s' (keyDestKey cfg) = fieldValue s' (keySourceKey cfg).
Proof.
  intros Hw Hg Hn.
  destruct (needs_true_data cfg s Hn) as [d Hd].
  destruct (Update (withData s (copiedData cfg d)) w1) as [e w2] eqn:Hu.
  rewrite (Reconcile_written cfg req w s w1 d e w2 Hw Hg Hn Hd Hu).
  exists (withData s (copiedData cfg d)).
  split; [reflexivity|]. split; [|apply copiedData_key_pair].
  apply fieldPresent_withData. unfold copiedData. rewrite lookup_insert_eq. eauto.
Qed.

Lemma reconcile_key_pair_equal_witness :
  exists s',
    submitted (trace (Reconcile cfgCrossed bundleKey (storeOf (bundle sourcesOnlyData)))) = [s']
    /\ fieldPresent s' (keyDestKey cfgCrossed)
    /\ fieldValue s' (keyDestKey cfgCrossed) = fieldValue s' (keySourceKey cfgCrossed).
Proof.
  apply (reconcile_key_pair_equal FakeStore fakeClient cfgCrossed bundleKey
           (storeOf (bundle sourcesOnlyData)) (bundle sourcesOnlyData)
           (storeOf (bundle sourcesOnlyData))).
  - vm_compute; reflexivity.
  - vm_compute; reflexivity.
  - vm_compute; reflexivity.
Defined.
